(** * Shop API (hw2 in-memory backend and hw45 SQL backend): item store,
    cart store and cart recalculation.

    Modelling conventions:
    - ids and quantities are Python [int]s, modelled as [Z];
    - prices are modelled as [Z] (fixed-point amounts, the hw45 backend
      stores them as [Numeric(12, 2)]), so sums are exact;
    - a Python [dict] is modelled as an association list that keeps
      insertion order: assigning to an existing key keeps its position,
      assigning a new key appends it ([PyDict]);
    - the module-level state of the hw2 backend ([items_data],
      [carts_data] and the single [id_generator] imported by both
      [item_queries] and [cart_queries]) is one record [Store], threaded
      explicitly through every operation.  Stored objects are never shared
      between two dictionary slots (requests build fresh objects), so the
      in-place mutations of the source ([.deleted = True], [.quantity += 1],
      [.items = ...]) are modelled as updates of the slot. *)

From Stdlib Require Import ZArith List String Ascii Bool Lia DecimalString Sorted Factorial.
Import ListNotations.
Open Scope Z_scope.
Open Scope list_scope.

(** ** Python dictionaries with insertion order *)

Module PyDict.

Definition t (V : Type) := list (Z * V).

Fixpoint get {V} (k : Z) (d : t V) : option V :=
  match d with
  | [] => None
  | (k', v) :: r => if Z.eqb k k' then Some v else get k r
  end.

(** [k in d] *)
Definition mem {V} (k : Z) (d : t V) : bool :=
  match get k d with Some _ => true | None => false end.

(** [d[k] = v] *)
Fixpoint set {V} (k : Z) (v : V) (d : t V) : t V :=
  match d with
  | [] => [(k, v)]
  | (k', v') :: r => if Z.eqb k k' then (k', v) :: r else (k', v') :: set k v r
  end.

(** [del d[k]] (callers check [k in d] first) *)
Fixpoint del {V} (k : Z) (d : t V) : t V :=
  match d with
  | [] => []
  | (k', v) :: r => if Z.eqb k k' then r else (k', v) :: del k r
  end.

End PyDict.

(** ** Data model ([item_models.py], [cart_models.py]) *)

Record ItemInfo := mkItemInfo {
  name : string;
  price : Z;
  deleted : bool
}.

Record ItemEntity := mkItemEntity {
  item_entity_id : Z;
  item_entity_info : ItemInfo
}.

Record PatchItemInfo := mkPatchItemInfo {
  patch_name : option string;
  patch_price : option Z;
  patch_deleted : option bool
}.

Record CartItemInfo := mkCartItemInfo {
  line_id : Z;
  line_name : string;
  quantity : Z;
  available : bool
}.

Record CartInfo := mkCartInfo {
  items : list CartItemInfo;
  cart_price : Z
}.

Record CartEntity := mkCartEntity {
  cart_entity_id : Z;
  cart_entity_info : CartInfo
}.

Record PatchCartInfo := mkPatchCartInfo {
  patch_items : option (list CartItemInfo);
  patch_cart_price : option Z
}.

(** The module-level state of the hw2 backend. [id_generator] is the next
    value the generator [int_id_generator()] yields; it starts at [0]. *)
Record Store := mkStore {
  items_data : PyDict.t ItemInfo;
  carts_data : PyDict.t CartInfo;
  id_generator : Z
}.

Definition initial_store : Store := mkStore [] [] 0.

(** [next(id_generator)] *)
Definition next_id (s : Store) : Z * Store :=
  (id_generator s, mkStore (items_data s) (carts_data s) (id_generator s + 1)).

(** ** [item_queries.py] *)

Module ItemQueries.

Definition with_items (s : Store) (d : PyDict.t ItemInfo) : Store :=
  mkStore d (carts_data s) (id_generator s).

Definition add (info : ItemInfo) (s : Store) : ItemEntity * Store :=
  let (_id, s1) := next_id s in
  (mkItemEntity _id info, with_items s1 (PyDict.set _id info (items_data s1))).

Definition delete (id : Z) (s : Store) : Store :=
  match PyDict.get id (items_data s) with
  | Some info =>
      with_items s (PyDict.set id (mkItemInfo (name info) (price info) true) (items_data s))
  | None => s
  end.

Definition get_one (id : Z) (s : Store) : option ItemEntity :=
  match PyDict.get id (items_data s) with
  | None => None
  | Some info => if deleted info then None else Some (mkItemEntity id info)
  end.

(** [id not in items_data or items_data[id].deleted] *)
Definition missing_or_deleted (id : Z) (s : Store) : bool :=
  match PyDict.get id (items_data s) with
  | None => true
  | Some info => deleted info
  end.

Definition update (id : Z) (info : ItemInfo) (s : Store) : option ItemEntity * Store :=
  if missing_or_deleted id s then (None, s)
  else (Some (mkItemEntity id info), with_items s (PyDict.set id info (items_data s))).

Definition upsert (id : Z) (info : ItemInfo) (s : Store) : ItemEntity * Store :=
  (mkItemEntity id info, with_items s (PyDict.set id info (items_data s))).

Definition patch (id : Z) (patch_info : PatchItemInfo) (s : Store) : option ItemEntity * Store :=
  match PyDict.get id (items_data s) with
  | None => (None, s)
  | Some info =>
      if deleted info then (None, s)
      else
        let info1 := match patch_name patch_info with
                     | Some n => mkItemInfo n (price info) (deleted info)
                     | None => info
                     end in
        let info2 := match patch_price patch_info with
                     | Some p => mkItemInfo (name info1) p (deleted info1)
                     | None => info1
                     end in
        (Some (mkItemEntity id info2), with_items s (PyDict.set id info2 (items_data s)))
  end.

(** The three [continue] guards of [get_many]: [true] when the item is
    kept. *)
Definition item_passes (min_price max_price : option Z) (show_deleted : bool)
    (info : ItemInfo) : bool :=
  negb (negb show_deleted && deleted info) &&
  negb (match min_price with Some m => price info <? m | None => false end) &&
  negb (match max_price with Some m => price info >? m | None => false end).

(** The generator loop of [get_many] over [items_data.items()]. *)
Fixpoint get_many_loop (offset limit : Z) (min_price max_price : option Z)
    (show_deleted : bool) (items : PyDict.t ItemInfo) (curr : Z) : list ItemEntity :=
  match items with
  | [] => []
  | (id, info) :: rest =>
      if item_passes min_price max_price show_deleted info then
        (if (offset <=? curr) && (curr <? offset + limit)
         then [mkItemEntity id info] else []) ++
        get_many_loop offset limit min_price max_price show_deleted rest (curr + 1)
      else get_many_loop offset limit min_price max_price show_deleted rest curr
  end.

Definition get_many (offset limit : Z) (min_price max_price : option Z)
    (show_deleted : bool) (s : Store) : list ItemEntity :=
  get_many_loop offset limit min_price max_price show_deleted (items_data s) 0.

End ItemQueries.

(** ** [cart_queries.py] *)

Module CartQueries.

Definition with_carts (s : Store) (d : PyDict.t CartInfo) : Store :=
  mkStore (items_data s) d (id_generator s).

Definition add_empty (s : Store) : CartEntity * Store :=
  let (_id, s1) := next_id s in
  let info := mkCartInfo [] 0 in
  (mkCartEntity _id info, with_carts s1 (PyDict.set _id info (carts_data s1))).

(** The [for item in info.items] loop of [_recalculate_cart_info], with
    its two accumulators [total_price] and [recalculated_items]. *)
Fixpoint recalculate_loop (s : Store) (lines : list CartItemInfo)
    (total_price : Z) (recalculated_items : list CartItemInfo) : CartInfo :=
  match lines with
  | [] => mkCartInfo recalculated_items total_price
  | item :: rest =>
      let entity := ItemQueries.get_one (line_id item) s in
      let available := match entity with Some _ => true | None => false end in
      let name := match entity with
                  | Some e => name (item_entity_info e)
                  | None => line_name item
                  end in
      let price := match entity with
                   | Some e => price (item_entity_info e)
                   | None => 0
                   end in
      let total_price' :=
        if available then total_price + price * quantity item else total_price in
      recalculate_loop s rest total_price'
        (recalculated_items ++
           [mkCartItemInfo (line_id item) name (quantity item) available])
  end.

Definition _recalculate_cart_info (s : Store) (info : CartInfo) : CartInfo :=
  recalculate_loop s (items info) 0 [].

Definition delete (id : Z) (s : Store) : Store :=
  if PyDict.mem id (carts_data s) then with_carts s (PyDict.del id (carts_data s)) else s.

Definition get_one (id : Z) (s : Store) : option CartEntity :=
  match PyDict.get id (carts_data s) with
  | None => None
  | Some info => Some (mkCartEntity id (_recalculate_cart_info s info))
  end.

(** [sum(i.quantity for i in items)] *)
Definition total_quantity (l : list CartItemInfo) : Z :=
  fold_left (fun acc i => acc + quantity i) l 0.

(** The four [continue] guards of [get_many]: [true] when the cart is kept. *)
Definition passes (min_price max_price : option Z)
    (min_quantity max_quantity : option Z) (info : CartInfo) : bool :=
  let tq := total_quantity (items info) in
  negb (match min_price with Some m => cart_price info <? m | None => false end) &&
  negb (match max_price with Some m => cart_price info >? m | None => false end) &&
  negb (match min_quantity with Some m => tq <? m | None => false end) &&
  negb (match max_quantity with Some m => tq >? m | None => false end).

(** The generator loop of [get_many] over [carts_data.items()], with the
    counter [curr] of carts that passed the filters. *)
Fixpoint get_many_loop (s : Store) (offset limit : Z)
    (min_price max_price min_quantity max_quantity : option Z)
    (carts : PyDict.t CartInfo) (curr : Z) : list CartEntity :=
  match carts with
  | [] => []
  | (id, info) :: rest =>
      let recalculated := _recalculate_cart_info s info in
      if passes min_price max_price min_quantity max_quantity recalculated then
        (if (offset <=? curr) && (curr <? offset + limit)
         then [mkCartEntity id recalculated] else []) ++
        get_many_loop s offset limit min_price max_price min_quantity max_quantity
          rest (curr + 1)
      else
        get_many_loop s offset limit min_price max_price min_quantity max_quantity
          rest curr
  end.

Definition get_many (offset limit : Z)
    (min_price max_price min_quantity max_quantity : option Z)
    (s : Store) : list CartEntity :=
  get_many_loop s offset limit min_price max_price min_quantity max_quantity
    (carts_data s) 0.

Definition update (id : Z) (info : CartInfo) (s : Store) : option CartEntity * Store :=
  if negb (PyDict.mem id (carts_data s)) then (None, s)
  else (Some (mkCartEntity id info), with_carts s (PyDict.set id info (carts_data s))).

Definition upsert (id : Z) (info : CartInfo) (s : Store) : CartEntity * Store :=
  (mkCartEntity id info, with_carts s (PyDict.set id info (carts_data s))).

Definition patch (id : Z) (patch_info : PatchCartInfo) (s : Store) : option CartEntity * Store :=
  match PyDict.get id (carts_data s) with
  | None => (None, s)
  | Some info =>
      let info1 := match patch_items patch_info with
                   | Some l => mkCartInfo l (cart_price info)
                   | None => info
                   end in
      let recalculated := _recalculate_cart_info s info1 in
      (Some (mkCartEntity id recalculated),
       with_carts s (PyDict.set id recalculated (carts_data s)))
  end.

(** [f"item-{item_id}"] *)
Definition placeholder_name (item_id : Z) : string :=
  ("item-" ++ NilZero.string_of_int (Z.to_int item_id))%string.

(** The [for it in existing.items: ... break / else: append] loop of
    [add_item]. *)
Fixpoint add_item_loop (item_id : Z) (new_line : CartItemInfo)
    (lines : list CartItemInfo) : list CartItemInfo :=
  match lines with
  | [] => [new_line]
  | it :: rest =>
      if line_id it =? item_id
      then mkCartItemInfo (line_id it) (line_name it) (quantity it + 1) (available it) :: rest
      else it :: add_item_loop item_id new_line rest
  end.

Definition add_item (cart_id item_id : Z) (s : Store) : option CartEntity * Store :=
  match PyDict.get cart_id (carts_data s) with
  | None => (None, s)
  | Some existing =>
      let item_entity := ItemQueries.get_one item_id s in
      let name := match item_entity with
                  | Some e => name (item_entity_info e)
                  | None => placeholder_name item_id
                  end in
      let new_line := mkCartItemInfo item_id name 1
                        (match item_entity with Some _ => true | None => false end) in
      let existing' := mkCartInfo (add_item_loop item_id new_line (items existing))
                         (cart_price existing) in
      let recalculated := _recalculate_cart_info s existing' in
      (Some (mkCartEntity cart_id recalculated),
       with_carts s (PyDict.set cart_id recalculated (carts_data s)))
  end.

End CartQueries.

(** ** The SQL backend of [hw45/shop_api/main.py] (the part used by the
    cart listing).  Tables are lists of rows; a [select] without
    [ORDER BY] is modelled as returning the rows in table order. *)

Module Hw45.

Record ItemOrm := mkItemOrm {
  orm_id : Z;
  orm_name : string;
  orm_price : Z;
  orm_deleted : bool
}.

Record CartItemOrm := mkCartItemOrm {
  ci_cart_id : Z;
  ci_item_id : Z;
  ci_quantity : Z
}.

Record DB := mkDB {
  items_table : list ItemOrm;
  carts_table : list Z;
  cart_items_table : list CartItemOrm
}.

(** [select(CartItemOrm.item_id, CartItemOrm.quantity, ItemOrm.name,
    ItemOrm.deleted, ItemOrm.price).join(ItemOrm, ...).where(...)] *)
Definition cart_rows (db : DB) (cart_id : Z) : list (Z * Z * string * bool * Z) :=
  flat_map (fun ci =>
    if ci_cart_id ci =? cart_id then
      flat_map (fun it =>
        if ci_item_id ci =? orm_id it
        then [(ci_item_id ci, ci_quantity ci, orm_name it, orm_deleted it, orm_price it)]
        else []) (items_table db)
    else []) (cart_items_table db).

Fixpoint recalculate_rows (rows : list (Z * Z * string * bool * Z))
    (total_price : Z) (acc : list CartItemInfo) : CartInfo :=
  match rows with
  | [] => mkCartInfo acc total_price
  | (item_id, quantity, name, deleted, price) :: rest =>
      let available := negb deleted in
      recalculate_rows rest
        (if available then total_price + price * quantity else total_price)
        (acc ++ [mkCartItemInfo item_id name quantity available])
  end.

Definition _cart_recalculate_by_id (db : DB) (cart_id : Z) : CartInfo :=
  recalculate_rows (cart_rows db cart_id) 0 [].

(** [select(CartOrm.id).offset(offset).limit(limit)] followed by the
    filtering loop of [cart_get_many]. *)
Definition cart_get_many (offset limit : Z)
    (min_price max_price min_quantity max_quantity : option Z)
    (db : DB) : list CartEntity :=
  let cart_ids := firstn (Z.to_nat limit) (skipn (Z.to_nat offset) (carts_table db)) in
  flat_map (fun cid =>
    let info := _cart_recalculate_by_id db cid in
    if CartQueries.passes min_price max_price min_quantity max_quantity info
    then [mkCartEntity cid info] else []) cart_ids.

End Hw45.

(** ** Specification-side vocabulary

    These definitions follow the wording of the specification (an item is
    active when it exists and is not soft-deleted; the expected price is
    the sum, over active lines, of current price times quantity) and are
    compared with the code's definitions above. *)

Module Spec.

Definition item_active (s : Store) (id : Z) : bool :=
  match PyDict.get id (items_data s) with
  | Some i => negb (deleted i)
  | None => false
  end.

Definition current_price (s : Store) (id : Z) : Z :=
  match PyDict.get id (items_data s) with Some i => price i | None => 0 end.

Definition current_name (s : Store) (id : Z) (fallback : string) : string :=
  match PyDict.get id (items_data s) with
  | Some i => if deleted i then fallback else name i
  | None => fallback
  end.

Fixpoint expected_price (s : Store) (lines : list CartItemInfo) : Z :=
  match lines with
  | [] => 0
  | l :: r =>
      (if item_active s (line_id l) then current_price s (line_id l) * quantity l else 0)
      + expected_price s r
  end.

(** The projected line the specification describes for a stored line. *)
Definition project_line (s : Store) (l : CartItemInfo) : CartItemInfo :=
  mkCartItemInfo (line_id l) (current_name s (line_id l) (line_name l))
    (quantity l) (item_active s (line_id l)).

(** The (item id, quantity) content of a line, the spec's [CartLine]. *)
Definition line_key (l : CartItemInfo) : Z * Z := (line_id l, quantity l).

(** (item id, quantity, available) of a projected line. *)
Definition view_fields (l : CartItemInfo) : Z * Z * bool :=
  (line_id l, quantity l, available l).

End Spec.

(** ** Concrete stores used by the examples *)

(** One active item [0] (price 10) and one cart [1] holding three of it. *)
Definition c7_store : Store :=
  mkStore [(0, mkItemInfo "apple" 10 false)]
          [(1, mkCartInfo [mkCartItemInfo 0 "apple" 3 true] 0)] 2.

(** An item [0] that is soft-deleted and an active item [1]. *)
Definition c8_store : Store :=
  mkStore [(0, mkItemInfo "old" 5 true); (1, mkItemInfo "pen" 7 false)] [] 2.

Module SpecItem.

(** The failure condition of item replace and patch as the specification
    words it: the id is absent, or the stored item is soft-deleted. *)
Definition absent_or_deleted (s : Store) (id : Z) : Prop :=
  PyDict.get id (items_data s) = None
  \/ exists i, PyDict.get id (items_data s) = Some i /\ deleted i = true.

(** The item after a partial update: supplied fields replaced. *)
Definition patched (i : ItemInfo) (pi : PatchItemInfo) : ItemInfo :=
  mkItemInfo (match patch_name pi with Some n => n | None => name i end)
             (match patch_price pi with Some p => p | None => price i end)
             (deleted i).

End SpecItem.

(** Cart [1] is empty, cart [2] holds one item [0] of price 10 (hw2). *)
Definition c4_store : Store :=
  mkStore [(0, mkItemInfo "apple" 10 false)]
          [(1, mkCartInfo [] 0); (2, mkCartInfo [mkCartItemInfo 0 "apple" 1 true] 0)] 3.

(** The same data in the tables of the SQL backend. *)
Definition c4_db : Hw45.DB :=
  Hw45.mkDB [Hw45.mkItemOrm 0 "apple" 10 false] [1; 2] [Hw45.mkCartItemOrm 2 0 1].

(** ** Sequences of id allocations *)

Inductive StoreKind := ItemStore | CartStore.

Definition store_kind_eqb (a b : StoreKind) : bool :=
  match a, b with
  | ItemStore, ItemStore | CartStore, CartStore => true
  | _, _ => false
  end.

(** The calls that allocate an id: item [add] and cart [add_empty]. *)
Inductive Alloc := AddItem (info : ItemInfo) | AddEmpty.

(** Run a sequence of allocating calls; record which store answered and
    the id it returned. *)
Fixpoint run_allocs (ops : list Alloc) (s : Store) : list (StoreKind * Z) :=
  match ops with
  | [] => []
  | AddItem info :: r =>
      let (e, s1) := ItemQueries.add info s in
      (ItemStore, item_entity_id e) :: run_allocs r s1
  | AddEmpty :: r =>
      let (e, s1) := CartQueries.add_empty s in
      (CartStore, cart_entity_id e) :: run_allocs r s1
  end.

(** The ids a given store allocated, in call order. *)
Definition ids_of (k : StoreKind) (trace : list (StoreKind * Z)) : list Z :=
  map snd (filter (fun p => store_kind_eqb (fst p) k) trace).

Module SpecCartList.

(** Every stored cart with its recalculated view, in dictionary order. *)
Definition recalculated_carts (s : Store) (carts : PyDict.t CartInfo) : list CartEntity :=
  map (fun p => mkCartEntity (fst p) (CartQueries._recalculate_cart_info s (snd p))) carts.

(** The listing as the specification describes it: filter the
    recalculated carts, then apply [offset]/[limit]. *)
Definition filtered_then_paged (offset limit : Z)
    (min_price max_price min_quantity max_quantity : option Z) (s : Store) : list CartEntity :=
  firstn (Z.to_nat limit)
    (skipn (Z.to_nat offset)
       (filter (fun e => CartQueries.passes min_price max_price min_quantity max_quantity
                           (cart_entity_info e))
          (recalculated_carts s (carts_data s)))).

End SpecCartList.

(** ** [cart_contracts.py]: the request models of the cart routes *)

Module CartContracts.

(** [CartItemRequest]: the same four fields as [CartItemInfo]. *)
Record CartItemRequest := mkCartItemRequest {
  req_id : Z;
  req_name : string;
  req_quantity : Z;
  req_available : bool
}.

Definition as_cart_item_info (r : CartItemRequest) : CartItemInfo :=
  mkCartItemInfo (req_id r) (req_name r) (req_quantity r) (req_available r).

(** [PatchCartRequest]: both fields optional. *)
Record PatchCartRequest := mkPatchCartRequest {
  req_items : option (list CartItemRequest);
  req_price : option Z
}.

(** [items=[...] if self.items else None]: an absent list and an empty
    list (falsy in Python) both become [None]. *)
Definition as_patch_cart_info (r : PatchCartRequest) : PatchCartInfo :=
  mkPatchCartInfo
    (match req_items r with
     | Some (_ :: _ as l) => Some (map as_cart_item_info l)
     | _ => None
     end)
    (req_price r).

(** The store call of the [patch_cart] route: the request is converted
    with [as_patch_cart_info] and passed to [store.patch] (the route then
    maps [None] to HTTP 304). *)
Definition patch_cart (id : Z) (info : PatchCartRequest) (s : Store) :
    option CartEntity * Store :=
  CartQueries.patch id (as_patch_cart_info info) s.

End CartContracts.

(** ** [hw1/app.py]: the arithmetic endpoints and the ASGI helpers *)

Module Hw1App.

(** A Python call that returns a value or raises [ValueError(msg)]. *)
Inductive result (A : Type) := Ok (a : A) | ValueError (msg : string).
Arguments Ok {A} a.
Arguments ValueError {A} msg.

(** The [while n > 0: a, b = b, a + b; n -= 1] loop, run [k] times. *)
Fixpoint fib_loop (k : nat) (a b : Z) : Z :=
  match k with
  | O => a
  | S k' => fib_loop k' b (a + b)
  end.

Definition calc_fib (n : Z) : result Z :=
  if n <? 0 then ValueError "num must be ge 0"
  else Ok (fib_loop (Z.to_nat n) 0 1).

Definition calc_fact (n : Z) : result Z :=
  if n <? 0 then ValueError "num must be ge 0"
  else if n =? 0 then Ok 1
  else Ok (fold_left (fun result i => result * i) (map Z.of_nat (seq 1 (Z.to_nat n))) 1).

(** An ASGI [http.request] message: [message.get("body", b"")] and
    [message.get("more_body", False)] read the optional fields. *)
Record Message := mkMessage {
  msg_body : option string;
  msg_more_body : option bool
}.

Definition body_of (m : Message) : string :=
  match msg_body m with Some b => b | None => ""%string end.

Definition more_of (m : Message) : bool :=
  match msg_more_body m with Some b => b | None => false end.

(** [read_body], with [receive] modelled as the list of pending messages.
    It returns the body and the messages not consumed; [None] when the
    messages run out while [more_body] is still set ([receive] would keep
    waiting). *)
Fixpoint read_body_loop (pending : list Message) (body : string)
    : option (string * list Message) :=
  match pending with
  | [] => None
  | message :: rest =>
      let body' := (body ++ body_of message)%string in
      if more_of message then read_body_loop rest body' else Some (body', rest)
  end.

Definition read_body (pending : list Message) : option (string * list Message) :=
  read_body_loop pending ""%string.

(** [s.split(sep)] for a one-character separator. *)
Fixpoint split_on (sep : ascii) (s : string) : list string :=
  match s with
  | EmptyString => [""%string]
  | String c r =>
      if Ascii.eqb c sep then ""%string :: split_on sep r
      else match split_on sep r with
           | [] => [String c ""]
           | h :: t => String c h :: t
           end
  end.

(** [if sep in s: a, b = s.split(sep, 1)]: [None] when [sep] does not
    occur. *)
Fixpoint split_once (sep : ascii) (s : string) : option (string * string) :=
  match s with
  | EmptyString => None
  | String c r =>
      if Ascii.eqb c sep then Some (""%string, r)
      else match split_once sep r with
           | Some (a, b) => Some (String c a, b)
           | None => None
           end
  end.

(** A Python [dict] with string keys. *)
Fixpoint sget (k : string) (d : list (string * string)) : option string :=
  match d with
  | [] => None
  | (k', v) :: r => if String.eqb k k' then Some v else sget k r
  end.

Fixpoint sset (k v : string) (d : list (string * string)) : list (string * string) :=
  match d with
  | [] => [(k, v)]
  | (k', v') :: r => if String.eqb k k' then (k', v) :: r else (k', v') :: sset k v r
  end.

(** The [params] dictionary built by the [/factorial] branch. *)
Definition parse_params (query_string : string) : list (string * string) :=
  match query_string with
  | EmptyString => []
  | _ =>
      fold_left (fun params pair =>
                   match split_once "=" pair with
                   | Some (key, value) => sset key value params
                   | None => params
                   end)
        (split_on "&" query_string) []
  end.

End Hw1App.

Module SpecHw1.

(** The Fibonacci numbers by their recurrence. *)
Fixpoint fib (n : nat) : Z :=
  match n with
  | O => 0
  | S O => 1
  | S (S m as p) => fib p + fib m
  end.

(** [k1=v1&k2=v2&...]. *)
Fixpoint join_pairs (ps : list (string * string)) : string :=
  match ps with
  | [] => EmptyString
  | [(k, v)] => (k ++ "=" ++ v)%string
  | (k, v) :: r => (k ++ "=" ++ v ++ "&" ++ join_pairs r)%string
  end.

(** The value of the last pair with key [k]. *)
Fixpoint last_value (k : string) (ps : list (string * string)) : option string :=
  match ps with
  | [] => None
  | (k', v) :: r =>
      match last_value k r with
      | Some w => Some w
      | None => if String.eqb k k' then Some v else None
      end
  end.

(** [c] does not occur in [s]. *)
Definition free_of (c : ascii) (s : string) : Prop := ~ In c (list_ascii_of_string s).

(** The bodies of the messages, concatenated in order. *)
Fixpoint all_bodies (ms : list Hw1App.Message) : string :=
  match ms with
  | [] => EmptyString
  | m :: r => (Hw1App.body_of m ++ all_bodies r)%string
  end.

End SpecHw1.

(** ** Facts about the dictionary model *)

Module PyDictFacts.
Import PyDict.

Lemma get_set_eq {V} (k : Z) (v : V) d : get k (set k v d) = Some v.
Proof.
  induction d as [|[k' v'] r IH]; simpl.
  - now rewrite Z.eqb_refl.
  - destruct (Z.eqb k k') eqn:E; simpl.
    + now rewrite E.
    + now rewrite E.
Qed.

Lemma get_set_neq {V} (k k2 : Z) (v : V) d :
  k2 <> k -> get k2 (set k v d) = get k2 d.
Proof.
  intros Hne. induction d as [|[k' v'] r IH]; simpl.
  - apply Z.eqb_neq in Hne. now rewrite Hne.
  - destruct (Z.eqb k k') eqn:E; simpl.
    + apply Z.eqb_eq in E; subst k'.
      apply Z.eqb_neq in Hne. now rewrite Hne.
    + now rewrite IH.
Qed.

Lemma set_existing_keys {V} (k : Z) (v : V) d :
  mem k d = true -> map fst (set k v d) = map fst d.
Proof.
  unfold mem. induction d as [|[k' v'] r IH]; simpl; [discriminate|].
  destruct (Z.eqb k k') eqn:E; simpl; [reflexivity|].
  intros H. now rewrite IH.
Qed.

Lemma set_set {V} (k : Z) (v w : V) d : set k v (set k w d) = set k v d.
Proof.
  induction d as [|[k' v'] r IH]; simpl.
  - now rewrite Z.eqb_refl.
  - destruct (Z.eqb k k') eqn:E; simpl; rewrite E; [reflexivity|]. now rewrite IH.
Qed.

Lemma get_del_neq {V} (k k2 : Z) (d : t V) : k2 <> k -> get k2 (del k d) = get k2 d.
Proof.
  intros Hne. induction d as [|[k' v'] r IH]; simpl; [reflexivity|].
  destruct (Z.eqb k k') eqn:E; simpl.
  - apply Z.eqb_eq in E; subst k'. apply Z.eqb_neq in Hne. now rewrite Hne.
  - now rewrite IH.
Qed.

Lemma get_none_not_in {V} (k : Z) (d : t V) : ~ In k (map fst d) -> get k d = None.
Proof.
  induction d as [|[k' v'] r IH]; simpl; intros H; [reflexivity|].
  destruct (Z.eqb k k') eqn:E.
  - apply Z.eqb_eq in E. exfalso. apply H. now left.
  - apply IH. intros Hin. apply H. now right.
Qed.

Lemma get_del_eq {V} (k : Z) (d : t V) : NoDup (map fst d) -> get k (del k d) = None.
Proof.
  induction d as [|[k' v'] r IH]; simpl; intros Hnd; [reflexivity|].
  inversion Hnd as [|? ? Hnin Hnd']; subst.
  destruct (Z.eqb k k') eqn:E.
  - apply Z.eqb_eq in E; subst k'. now apply get_none_not_in.
  - simpl. rewrite E. now apply IH.
Qed.

End PyDictFacts.

(** ** Recalculation: closed form *)

Module RecalcFacts.
Import CartQueries Spec.

Lemma recalculate_loop_closed (s : Store) lines : forall tp acc,
  recalculate_loop s lines tp acc =
  mkCartInfo (acc ++ map (project_line s) lines) (tp + expected_price s lines).
Proof.
  induction lines as [|l r IH]; intros tp acc; simpl.
  - rewrite app_nil_r. f_equal. lia.
  - rewrite IH, <- app_assoc. simpl.
    unfold project_line, item_active, current_name, current_price, ItemQueries.get_one.
    destruct (PyDict.get (line_id l) (items_data s)) as [i|]; simpl;
      [destruct (deleted i)|]; simpl; f_equal; lia.
Qed.

Lemma recalculate_closed (s : Store) info :
  _recalculate_cart_info s info =
  mkCartInfo (map (project_line s) (items info)) (expected_price s (items info)).
Proof. unfold _recalculate_cart_info. now rewrite recalculate_loop_closed. Qed.

End RecalcFacts.

Module RecalcFacts2.
Import CartQueries Spec RecalcFacts.

Lemma expected_price_app (s : Store) l1 l2 :
  expected_price s (l1 ++ l2) = expected_price s l1 + expected_price s l2.
Proof. induction l1 as [|x r IH]; simpl; [reflexivity|]. rewrite IH. lia. Qed.

Lemma firstn_skipn_middle {A} (l1 l2 : list A) (x : A) :
  firstn (List.length l1) (l1 ++ x :: l2) ++ skipn (S (List.length l1)) (l1 ++ x :: l2) = l1 ++ l2.
Proof.
  induction l1 as [|y r IH]; simpl; [reflexivity|]. now f_equal.
Qed.

End RecalcFacts2.

(** ** Claims about the recalculation algorithm *)

(** C1: the recomputed view has one projected line per stored line, in
    the stored order, carrying the stored item id and quantity and
    [available = true] exactly when the item exists and is not
    soft-deleted; its price is the sum over available lines of current
    price times quantity. *)
Theorem recalc_projects_each_line (s : Store) (info : CartInfo) :
  map Spec.view_fields (items (CartQueries._recalculate_cart_info s info)) =
    map (fun l => (line_id l, quantity l, Spec.item_active s (line_id l))) (items info)
  /\ cart_price (CartQueries._recalculate_cart_info s info) =
     Spec.expected_price s (items info).
Proof.
  rewrite RecalcFacts.recalculate_closed. simpl. split; [|reflexivity].
  rewrite map_map. reflexivity.
Qed.

(** C3: a line whose item id resolves to no item record stays in the
    recomputed view, unavailable, under its carried fallback name, with its
    quantity; removing it from the cart does not change the price. *)
Theorem recalc_absent_item_line (s : Store) (info : CartInfo) (n : nat)
    (l : CartItemInfo)
    (Hl : nth_error (items info) n = Some l)
    (Habsent : PyDict.get (line_id l) (items_data s) = None) :
  nth_error (items (CartQueries._recalculate_cart_info s info)) n =
    Some (mkCartItemInfo (line_id l) (line_name l) (quantity l) false)
  /\ cart_price (CartQueries._recalculate_cart_info s info) =
     cart_price (CartQueries._recalculate_cart_info s
       (mkCartInfo (firstn n (items info) ++ skipn (S n) (items info)) (cart_price info))).
Proof.
  rewrite !RecalcFacts.recalculate_closed. split.
  - simpl. rewrite nth_error_map, Hl. simpl.
    unfold Spec.project_line, Spec.current_name, Spec.item_active.
    now rewrite Habsent.
  - destruct (nth_error_split _ _ Hl) as (l1 & l2 & Heq & Hlen).
    rewrite Heq, <- Hlen, RecalcFacts2.firstn_skipn_middle. simpl.
    rewrite !RecalcFacts2.expected_price_app. simpl.
    unfold Spec.item_active. rewrite Habsent. lia.
Qed.

Lemma recalc_absent_item_line_witness :
  nth_error (mkCartInfo [mkCartItemInfo 5 "gone" 2 true] 0).(items) 0 =
    Some (mkCartItemInfo 5 "gone" 2 true)
  /\ PyDict.get 5 (items_data initial_store) = None
  /\ nth_error (items (CartQueries._recalculate_cart_info initial_store
                  (mkCartInfo [mkCartItemInfo 5 "gone" 2 true] 0))) 0 =
       Some (mkCartItemInfo 5 "gone" 2 false).
Proof.
  split; [reflexivity|]. split; [reflexivity|].
  exact (proj1 (recalc_absent_item_line initial_store
                  (mkCartInfo [mkCartItemInfo 5 "gone" 2 true] 0) 0
                  (mkCartItemInfo 5 "gone" 2 true) eq_refl eq_refl)).
Defined.

(** ** Claims about the item store *)

Module ItemFacts.

Lemma delete_inactive (s : Store) (id : Z) :
  Spec.item_active (ItemQueries.delete id s) id = false
  /\ ItemQueries.get_one id (ItemQueries.delete id s) = None.
Proof.
  unfold ItemQueries.delete, Spec.item_active, ItemQueries.get_one.
  destruct (PyDict.get id (items_data s)) as [i|] eqn:E; simpl.
  - now rewrite PyDictFacts.get_set_eq.
  - now rewrite E.
Qed.

End ItemFacts.

(** C7: after [delete id] the active-only lookup of [id] fails, carts are
    untouched, and every cart line referencing [id] is still projected,
    with its quantity, as unavailable; deleting an absent id changes
    nothing. *)
Theorem soft_delete_hides_item (s : Store) (id : Z) :
  ItemQueries.get_one id (ItemQueries.delete id s) = None
  /\ carts_data (ItemQueries.delete id s) = carts_data s
  /\ (forall (info : CartInfo) (n : nat) (l : CartItemInfo),
        nth_error (items info) n = Some l -> line_id l = id ->
        exists l',
          nth_error (items (CartQueries._recalculate_cart_info
                              (ItemQueries.delete id s) info)) n = Some l'
          /\ line_id l' = id /\ quantity l' = quantity l /\ available l' = false)
  /\ (PyDict.get id (items_data s) = None -> ItemQueries.delete id s = s).
Proof.
  destruct (ItemFacts.delete_inactive s id) as [Hact Hget].
  split; [exact Hget|]. split.
  { unfold ItemQueries.delete. now destruct (PyDict.get id (items_data s)). }
  split.
  - intros info n l Hl Hid. rewrite RecalcFacts.recalculate_closed. simpl.
    rewrite nth_error_map, Hl. simpl.
    eexists; split; [reflexivity|]. simpl. subst id. auto.
  - intros Habs. unfold ItemQueries.delete. now rewrite Habs.
Qed.

Lemma soft_delete_hides_item_witness :
  exists l',
    nth_error (items (CartQueries._recalculate_cart_info
                        (ItemQueries.delete 0 c7_store)
                        (mkCartInfo [mkCartItemInfo 0 "apple" 3 true] 0))) 0%nat = Some l'
    /\ line_id l' = 0 /\ quantity l' = 3 /\ available l' = false.
Proof.
  exact (proj1 (proj2 (proj2 (soft_delete_hides_item c7_store 0)))
           (mkCartInfo [mkCartItemInfo 0 "apple" 3 true] 0) 0%nat
           (mkCartItemInfo 0 "apple" 3 true) eq_refl eq_refl).
Defined.

(** C8: item replace ([update]) and [patch] report not-found exactly when
    the id is absent or soft-deleted, leaving the store unchanged then; on
    success replace stores the given record and patch replaces only the
    supplied fields. *)
Theorem item_replace_patch_not_found (s : Store) (id : Z) (info : ItemInfo)
    (pi : PatchItemInfo) :
  (fst (ItemQueries.update id info s) = None <-> SpecItem.absent_or_deleted s id)
  /\ (fst (ItemQueries.patch id pi s) = None <-> SpecItem.absent_or_deleted s id)
  /\ (SpecItem.absent_or_deleted s id ->
        snd (ItemQueries.update id info s) = s /\ snd (ItemQueries.patch id pi s) = s)
  /\ (~ SpecItem.absent_or_deleted s id ->
        fst (ItemQueries.update id info s) = Some (mkItemEntity id info)
        /\ PyDict.get id (items_data (snd (ItemQueries.update id info s))) = Some info
        /\ exists i, PyDict.get id (items_data s) = Some i
           /\ fst (ItemQueries.patch id pi s) =
                Some (mkItemEntity id (SpecItem.patched i pi))
           /\ PyDict.get id (items_data (snd (ItemQueries.patch id pi s))) =
                Some (SpecItem.patched i pi)).
Proof.
  unfold SpecItem.absent_or_deleted, ItemQueries.update, ItemQueries.patch,
    ItemQueries.missing_or_deleted.
  destruct (PyDict.get id (items_data s)) as [i|] eqn:E.
  - destruct (deleted i) eqn:D; simpl.
    + assert (H : Some i = None \/ (exists i0, Some i = Some i0 /\ deleted i0 = true))
        by (right; eauto).
      exact (conj (conj (fun _ => H) (fun _ => eq_refl))
               (conj (conj (fun _ => H) (fun _ => eq_refl))
                  (conj (fun _ => conj eq_refl eq_refl)
                     (fun Hn => False_ind _ (Hn H))))).
    + assert (H : ~ (Some i = None \/ (exists i0, Some i = Some i0 /\ deleted i0 = true))).
      { intros [H|[i0 [H1 H2]]]; [discriminate|]. injection H1 as <-. congruence. }
      refine (conj (conj (fun Hc => _) (fun Hp => False_ind _ (H Hp)))
                (conj (conj (fun Hc => _) (fun Hp => False_ind _ (H Hp)))
                   (conj (fun Hp => False_ind _ (H Hp)) (fun _ => _))));
        try discriminate.
      split; [reflexivity|]. split; [apply PyDictFacts.get_set_eq|].
      exists i. split; [reflexivity|].
      unfold SpecItem.patched. destruct i as [n0 p0 d0]. simpl in D. subst d0.
      destruct (patch_name pi), (patch_price pi); simpl;
        (split; [reflexivity | apply PyDictFacts.get_set_eq]).
  - simpl.
    assert (H : @None ItemInfo = None \/
                (exists i0, @None ItemInfo = Some i0 /\ deleted i0 = true)) by (left; reflexivity).
    exact (conj (conj (fun _ => H) (fun _ => eq_refl))
             (conj (conj (fun _ => H) (fun _ => eq_refl))
                (conj (fun _ => conj eq_refl eq_refl)
                   (fun Hn => False_ind _ (Hn H))))).
Qed.

Lemma item_replace_patch_not_found_witness :
  fst (ItemQueries.update 0 (mkItemInfo "new" 9 false) c8_store) = None
  /\ fst (ItemQueries.patch 1 (mkPatchItemInfo None (Some 8) None) c8_store) =
       Some (mkItemEntity 1 (mkItemInfo "pen" 8 false)).
Proof.
  pose proof (item_replace_patch_not_found c8_store 0 (mkItemInfo "new" 9 false)
                (mkPatchItemInfo None None None)) as [[_ H0] _].
  pose proof (item_replace_patch_not_found c8_store 1 (mkItemInfo "new" 9 false)
                (mkPatchItemInfo None (Some 8) None)) as [_ [_ [_ H1]]].
  split.
  - apply H0. right. exists (mkItemInfo "old" 5 true). split; reflexivity.
  - destruct H1 as [_ [_ [i [Hi [Hp _]]]]].
    + intros [H|[i0 [H1 H2]]]; [discriminate|]. injection H1 as <-. discriminate.
    + rewrite Hp. simpl in Hi. injection Hi as <-. reflexivity.
Defined.

(** ** Recalculation is a function of the item data only, and idempotent *)

Module RecalcFacts3.
Import CartQueries Spec RecalcFacts.

Lemma project_line_items_only (s s' : Store) l :
  items_data s' = items_data s -> project_line s' l = project_line s l.
Proof.
  intros H. unfold project_line, current_name, item_active. now rewrite H.
Qed.

Lemma expected_price_items_only (s s' : Store) lines :
  items_data s' = items_data s -> expected_price s' lines = expected_price s lines.
Proof.
  intros H. induction lines as [|l r IH]; simpl; [reflexivity|].
  unfold item_active, current_price. rewrite H, IH. reflexivity.
Qed.

Lemma recalc_items_only (s s' : Store) info :
  items_data s' = items_data s ->
  _recalculate_cart_info s' info = _recalculate_cart_info s info.
Proof.
  intros H. rewrite !recalculate_closed.
  rewrite (expected_price_items_only s s'), (map_ext _ _ (fun l => project_line_items_only s s' l H));
    auto.
Qed.

Lemma project_line_idem (s : Store) l :
  project_line s (project_line s l) = project_line s l.
Proof.
  unfold project_line, current_name, item_active. simpl.
  destruct (PyDict.get (line_id l) (items_data s)) as [i|]; [|reflexivity].
  destruct (deleted i); reflexivity.
Qed.

Lemma expected_price_project (s : Store) lines :
  expected_price s (map (project_line s) lines) = expected_price s lines.
Proof.
  induction lines as [|l r IH]; simpl; [reflexivity|]. now rewrite IH.
Qed.

Lemma recalc_idem (s s' : Store) info :
  items_data s' = items_data s ->
  _recalculate_cart_info s' (_recalculate_cart_info s info) = _recalculate_cart_info s info.
Proof.
  intros H. rewrite (recalc_items_only s s' _ H).
  rewrite !recalculate_closed. simpl.
  rewrite map_map, expected_price_project.
  f_equal. apply map_ext. apply project_line_idem.
Qed.

End RecalcFacts3.

(** C9: [upsert] (items and carts) always returns an entity carrying the
    given id and leaves exactly the given record at that id, other ids
    untouched; [update] (replace) on an absent id reports not-found. *)
Theorem upsert_vs_replace (s : Store) (id : Z) (info : ItemInfo) (cinfo : CartInfo) :
  fst (ItemQueries.upsert id info s) = mkItemEntity id info
  /\ PyDict.get id (items_data (snd (ItemQueries.upsert id info s))) = Some info
  /\ (forall k, k <> id ->
        PyDict.get k (items_data (snd (ItemQueries.upsert id info s))) =
        PyDict.get k (items_data s))
  /\ cart_entity_id (fst (CartQueries.upsert id cinfo s)) = id
  /\ PyDict.get id (carts_data (snd (CartQueries.upsert id cinfo s))) = Some cinfo
  /\ (forall k, k <> id ->
        PyDict.get k (carts_data (snd (CartQueries.upsert id cinfo s))) =
        PyDict.get k (carts_data s))
  /\ (PyDict.get id (items_data s) = None -> fst (ItemQueries.update id info s) = None)
  /\ (PyDict.get id (carts_data s) = None -> fst (CartQueries.update id cinfo s) = None).
Proof.
  simpl. split; [reflexivity|]. split; [apply PyDictFacts.get_set_eq|].
  split; [intros k Hk; now apply PyDictFacts.get_set_neq|].
  split; [reflexivity|]. split; [apply PyDictFacts.get_set_eq|].
  split; [intros k Hk; now apply PyDictFacts.get_set_neq|].
  split.
  - intros H. unfold ItemQueries.update, ItemQueries.missing_or_deleted. now rewrite H.
  - intros H. unfold CartQueries.update, PyDict.mem. now rewrite H.
Qed.

Lemma upsert_vs_replace_witness :
  fst (CartQueries.update 9999 (mkCartInfo [] 0) c7_store) = None
  /\ cart_entity_id (fst (CartQueries.upsert 9999 (mkCartInfo [] 0) c7_store)) = 9999.
Proof.
  destruct (upsert_vs_replace c7_store 9999 (mkItemInfo "x" 1 false) (mkCartInfo [] 0))
    as (_ & _ & _ & Hid & _ & _ & _ & Hupd).
  split; [apply Hupd; reflexivity | exact Hid].
Defined.

(** C10: the [price] field of a cart patch payload has no effect: patching
    with or without it gives the same result and store, and the returned
    view is the recalculation of the stored cart. *)
Theorem cart_patch_ignores_price (s : Store) (id : Z)
    (lines : option (list CartItemInfo)) (p : Z) :
  CartQueries.patch id (mkPatchCartInfo lines (Some p)) s =
    CartQueries.patch id (mkPatchCartInfo lines None) s
  /\ (forall e s', CartQueries.patch id (mkPatchCartInfo lines (Some p)) s = (Some e, s') ->
        exists stored, PyDict.get id (carts_data s') = Some stored
          /\ cart_entity_info e = CartQueries._recalculate_cart_info s' stored).
Proof.
  split; [reflexivity|].
  intros e s' H. unfold CartQueries.patch in H. simpl in H.
  destruct (PyDict.get id (carts_data s)) as [info|]; [|discriminate].
  injection H as <- <-. simpl.
  eexists; split; [apply PyDictFacts.get_set_eq|].
  symmetry. apply RecalcFacts3.recalc_idem. reflexivity.
Qed.

Lemma cart_patch_ignores_price_witness :
  exists stored,
    PyDict.get 1 (carts_data (snd (CartQueries.patch 1 (mkPatchCartInfo None (Some 999)) c7_store)))
      = Some stored
    /\ CartQueries._recalculate_cart_info
         (snd (CartQueries.patch 1 (mkPatchCartInfo None (Some 999)) c7_store)) stored
       = mkCartInfo [mkCartItemInfo 0 "apple" 3 true] 30.
Proof.
  destruct (proj2 (cart_patch_ignores_price c7_store 1 None 999)
              (mkCartEntity 1 (mkCartInfo [mkCartItemInfo 0 "apple" 3 true] 30))
              (snd (CartQueries.patch 1 (mkPatchCartInfo None (Some 999)) c7_store))
              eq_refl) as [stored [Hs He]].
  exists stored. split; [exact Hs|]. rewrite <- He. reflexivity.
Defined.

(** ** The increment-or-add loop *)

Module AddItemFacts.
Import CartQueries Spec.

Lemma add_item_loop_found (item_id : Z) nl pre l post :
  Forall (fun x => line_id x <> item_id) pre -> line_id l = item_id ->
  add_item_loop item_id nl (pre ++ l :: post) =
  pre ++ mkCartItemInfo (line_id l) (line_name l) (quantity l + 1) (available l) :: post.
Proof.
  intros Hpre Hl. induction Hpre as [|x pre Hx _ IH]; simpl.
  - now rewrite Hl, Z.eqb_refl.
  - apply Z.eqb_neq in Hx. now rewrite Hx, IH.
Qed.

Lemma add_item_loop_absent (item_id : Z) nl lines :
  Forall (fun x => line_id x <> item_id) lines ->
  add_item_loop item_id nl lines = lines ++ [nl].
Proof.
  intros H. induction H as [|x r Hx _ IH]; simpl; [reflexivity|].
  apply Z.eqb_neq in Hx. now rewrite Hx, IH.
Qed.

Lemma line_key_project (s : Store) lines :
  map line_key (map (project_line s) lines) = map line_key lines.
Proof. rewrite map_map. reflexivity. Qed.

End AddItemFacts.

(** C6: [add_item] (increment-or-add) reports not-found exactly when the
    cart is absent; otherwise the first line referencing the item gets its
    quantity increased by one and every other line keeps its item id and
    quantity in place, or, when no line references the item, a line with
    quantity 1 is appended whose fallback name is the current item name if
    the item is active and ["item-{id}"] otherwise; the returned view is
    the recalculation of the stored cart. *)
Theorem increment_or_add (s : Store) (cart_id item_id : Z) :
  match PyDict.get cart_id (carts_data s) with
  | None => CartQueries.add_item cart_id item_id s = (None, s)
  | Some existing =>
      exists e s' stored,
        CartQueries.add_item cart_id item_id s = (Some e, s')
        /\ PyDict.get cart_id (carts_data s') = Some stored
        /\ items_data s' = items_data s
        /\ cart_entity_id e = cart_id
        /\ cart_entity_info e = CartQueries._recalculate_cart_info s' stored
        /\ (forall pre l post,
              items existing = pre ++ l :: post ->
              Forall (fun x => line_id x <> item_id) pre -> line_id l = item_id ->
              map Spec.line_key (items stored) =
                map Spec.line_key pre ++ (item_id, quantity l + 1) :: map Spec.line_key post)
        /\ (Forall (fun x => line_id x <> item_id) (items existing) ->
              map Spec.line_key (items stored) =
                map Spec.line_key (items existing) ++ [(item_id, 1)]
              /\ exists pre' l',
                   items stored = pre' ++ [l']
                   /\ line_name l' =
                        Spec.current_name s item_id (CartQueries.placeholder_name item_id))
  end.
Proof.
  unfold CartQueries.add_item.
  destruct (PyDict.get cart_id (carts_data s)) as [existing|]; [|reflexivity].
  set (nl := mkCartItemInfo item_id _ 1 _).
  do 3 eexists. split; [reflexivity|]. simpl.
  split; [apply PyDictFacts.get_set_eq|]. split; [reflexivity|]. split; [reflexivity|].
  split; [symmetry; now apply RecalcFacts3.recalc_idem|].
  rewrite RecalcFacts.recalculate_closed. simpl.
  rewrite AddItemFacts.line_key_project. split.
  - intros pre l post Hex Hpre Hl. rewrite Hex.
    rewrite (AddItemFacts.add_item_loop_found _ _ _ _ _ Hpre Hl), map_app. simpl.
    unfold Spec.line_key at 2. simpl. now rewrite Hl.
  - intros Hall. rewrite (AddItemFacts.add_item_loop_absent _ _ _ Hall).
    rewrite map_app. split; [reflexivity|].
    exists (map (Spec.project_line s) (items existing)), (Spec.project_line s nl).
    split; [now rewrite map_app|].
    unfold nl, Spec.project_line, Spec.current_name, ItemQueries.get_one. simpl.
    destruct (PyDict.get item_id (items_data s)) as [i|]; [|reflexivity].
    destruct (deleted i); reflexivity.
Qed.

Lemma increment_or_add_witness :
  CartQueries.add_item 1 0 c7_store =
    (Some (mkCartEntity 1 (mkCartInfo [mkCartItemInfo 0 "apple" 4 true] 40)),
     CartQueries.with_carts c7_store
       [(1, mkCartInfo [mkCartItemInfo 0 "apple" 4 true] 40)])
  /\ CartQueries.add_item 7 0 c7_store = (None, c7_store).
Proof.
  split; [reflexivity|].
  exact (increment_or_add c7_store 7 0).
Defined.

(** C2 (hw2 backend): cart [update] and [upsert] return the cart info the
    caller supplied, price included, instead of a recalculated view.  Cart
    [1] of [c7_store] replaced by three items [0] (price 10) with a supplied
    price of 5: both return price 5, the recalculation gives 30. *)
Theorem cart_update_returns_supplied_price :
  fst (CartQueries.update 1 (mkCartInfo [mkCartItemInfo 0 "apple" 3 true] 5) c7_store)
    = Some (mkCartEntity 1 (mkCartInfo [mkCartItemInfo 0 "apple" 3 true] 5))
  /\ fst (CartQueries.upsert 1 (mkCartInfo [mkCartItemInfo 0 "apple" 3 true] 5) c7_store)
    = mkCartEntity 1 (mkCartInfo [mkCartItemInfo 0 "apple" 3 true] 5)
  /\ CartQueries.get_one 1
       (snd (CartQueries.update 1 (mkCartInfo [mkCartItemInfo 0 "apple" 3 true] 5) c7_store))
     = Some (mkCartEntity 1 (mkCartInfo [mkCartItemInfo 0 "apple" 3 true] 30)).
Proof. repeat split; reflexivity. Qed.

(** C4 (hw45 backend): [cart_get_many] applies [offset]/[limit] to the cart
    ids before filtering.  With carts [1] (empty, price 0) and [2] (price
    10), [min_price = 5], [offset = 0], [limit = 1]: the filtered sequence is
    cart [2] alone, so the first page should hold it, yet the SQL backend
    returns nothing; the hw2 backend returns cart [2]. *)
Theorem cart_list_paginates_before_filter :
  Hw45.cart_get_many 0 1 (Some 5) None None None c4_db = []
  /\ CartQueries.passes (Some 5) None None None (Hw45._cart_recalculate_by_id c4_db 1) = false
  /\ CartQueries.passes (Some 5) None None None (Hw45._cart_recalculate_by_id c4_db 2) = true
  /\ CartQueries.get_many 0 1 (Some 5) None None None c4_store
     = [mkCartEntity 2 (mkCartInfo [mkCartItemInfo 0 "apple" 1 true] 10)].
Proof. repeat split; reflexivity. Qed.

(** ** Id allocation *)

Module AllocFacts.

Lemma run_allocs_ids (ops : list Alloc) : forall s,
  map snd (run_allocs ops s) =
  map (fun n => id_generator s + Z.of_nat n) (seq 0 (List.length ops)).
Proof.
  induction ops as [|op r IH]; intros s; [reflexivity|].
  change (seq 0 (List.length (op :: r))) with (0%nat :: seq 1 (List.length r)).
  rewrite <- seq_shift.
  destruct op; simpl; rewrite IH; simpl; f_equal;
    try lia; rewrite map_map; apply map_ext; intros n; lia.
Qed.

Lemma seq_ids_sorted (len : nat) : forall start,
  Sorted Z.lt (map Z.of_nat (seq start len)).
Proof.
  induction len as [|len IH]; intros start; simpl; [constructor|].
  constructor; [apply IH|].
  destruct len; simpl; constructor. lia.
Qed.

Lemma ids_of_sorted (k : StoreKind) (trace : list (StoreKind * Z)) :
  StronglySorted Z.lt (map snd trace) -> StronglySorted Z.lt (ids_of k trace).
Proof.
  unfold ids_of. induction trace as [|p r IH]; simpl; intros H; [constructor|].
  apply StronglySorted_inv in H as [Hr Hp].
  destruct (store_kind_eqb (fst p) k); simpl; [|now apply IH].
  constructor; [now apply IH|].
  rewrite Forall_forall in *. intros x Hx.
  apply in_map_iff in Hx as [q [<- Hq]]. apply filter_In in Hq as [Hq _].
  apply Hp. now apply in_map.
Qed.

End AllocFacts.

(** C5, as the claim states it, fails: item [add] and cart [add_empty]
    share one id generator, so after one item has been added the first cart
    gets id 1, not 0. *)
Lemma first_cart_id_after_item_add :
  ids_of CartStore (run_allocs [AddItem (mkItemInfo "pen" 7 false); AddEmpty] initial_store)
    = [1]
  /\ hd_error (ids_of CartStore
       (run_allocs [AddItem (mkItemInfo "pen" 7 false); AddEmpty] initial_store)) <> Some 0.
Proof. split; [reflexivity|]. simpl. congruence. Qed.

(** C5 (amended): item [add] and cart [add_empty] draw from one shared
    counter starting at 0: the n-th allocating call overall (counting from
    0, both stores together) returns id n; hence the ids each store
    allocates are strictly increasing and never reused. *)
Theorem shared_id_counter (ops : list Alloc) :
  map snd (run_allocs ops initial_store) = map Z.of_nat (seq 0 (List.length ops))
  /\ (forall k, StronglySorted Z.lt (ids_of k (run_allocs ops initial_store))).
Proof.
  assert (H : map snd (run_allocs ops initial_store) = map Z.of_nat (seq 0 (List.length ops))).
  { rewrite AllocFacts.run_allocs_ids. apply map_ext. intros n. simpl. lia. }
  split; [exact H|].
  intros k. apply AllocFacts.ids_of_sorted. rewrite H.
  apply Sorted_StronglySorted; [intros x y z; lia|]. apply AllocFacts.seq_ids_sorted.
Qed.

(** ** The hw2 cart listing filters first and paginates second *)

Module CartListFacts.
Import CartQueries SpecCartList.

Lemma get_many_loop_closed (s : Store) (off lim : Z) mnp mxp mnq mxq
    (carts : PyDict.t CartInfo) : forall curr, 0 <= curr ->
  get_many_loop s off lim mnp mxp mnq mxq carts curr =
  firstn (Z.to_nat (off + lim - Z.max off curr))
    (skipn (Z.to_nat (off - curr))
       (filter (fun e => passes mnp mxp mnq mxq (cart_entity_info e))
          (recalculated_carts s carts))).
Proof.
  induction carts as [|[id info] rest IH]; intros curr Hc; simpl.
  - now rewrite skipn_nil, firstn_nil.
  - destruct (passes mnp mxp mnq mxq (_recalculate_cart_info s info)) eqn:P.
    + rewrite IH by lia.
      destruct (Z.leb_spec off curr); destruct (Z.ltb_spec curr (off + lim)); simpl.
      * replace (Z.to_nat (off - curr)) with 0%nat by lia.
        replace (Z.to_nat (off - (curr + 1))) with 0%nat by lia.
        replace (Z.to_nat (off + lim - Z.max off curr))
          with (S (Z.to_nat (off + lim - Z.max off (curr + 1)))) by lia.
        reflexivity.
      * replace (Z.to_nat (off + lim - Z.max off curr)) with 0%nat by lia.
        replace (Z.to_nat (off + lim - Z.max off (curr + 1))) with 0%nat by lia.
        now rewrite !firstn_O.
      * replace (Z.to_nat (off - curr)) with (S (Z.to_nat (off - (curr + 1)))) by lia.
        simpl. f_equal. lia.
      * replace (Z.to_nat (off + lim - Z.max off curr)) with 0%nat by lia.
        replace (Z.to_nat (off + lim - Z.max off (curr + 1))) with 0%nat by lia.
        now rewrite !firstn_O.
    + apply IH. exact Hc.
Qed.

(** hw2's [get_many] is the filtered-then-paginated listing. *)
Lemma get_many_filtered_then_paged (s : Store) (offset limit : Z) mnp mxp mnq mxq :
  0 <= offset ->
  get_many offset limit mnp mxp mnq mxq s =
  filtered_then_paged offset limit mnp mxp mnq mxq s.
Proof.
  intros Ho. unfold get_many, filtered_then_paged.
  rewrite get_many_loop_closed by lia.
  f_equal; f_equal; lia.
Qed.

End CartListFacts.

(** * Further properties of the code *)

(** ** Item listing ([item_queries.get_many]) *)

Module ItemListFacts.
Import ItemQueries.

Lemma item_get_many_loop_closed (off lim : Z) mnp mxp sd (its : PyDict.t ItemInfo) :
  forall curr, 0 <= curr ->
  get_many_loop off lim mnp mxp sd its curr =
  firstn (Z.to_nat (off + lim - Z.max off curr))
    (skipn (Z.to_nat (off - curr))
       (map (fun p => mkItemEntity (fst p) (snd p))
          (filter (fun p => item_passes mnp mxp sd (snd p)) its))).
Proof.
  induction its as [|[id info] rest IH]; intros curr Hc; simpl.
  - now rewrite skipn_nil, firstn_nil.
  - destruct (item_passes mnp mxp sd info) eqn:P; simpl.
    + rewrite IH by lia.
      destruct (Z.leb_spec off curr); destruct (Z.ltb_spec curr (off + lim)); simpl.
      * replace (Z.to_nat (off - curr)) with 0%nat by lia.
        replace (Z.to_nat (off - (curr + 1))) with 0%nat by lia.
        replace (Z.to_nat (off + lim - Z.max off curr))
          with (S (Z.to_nat (off + lim - Z.max off (curr + 1)))) by lia.
        reflexivity.
      * replace (Z.to_nat (off + lim - Z.max off curr)) with 0%nat by lia.
        replace (Z.to_nat (off + lim - Z.max off (curr + 1))) with 0%nat by lia.
        now rewrite !firstn_O.
      * replace (Z.to_nat (off - curr)) with (S (Z.to_nat (off - (curr + 1)))) by lia.
        simpl. f_equal. lia.
      * replace (Z.to_nat (off + lim - Z.max off curr)) with 0%nat by lia.
        replace (Z.to_nat (off + lim - Z.max off (curr + 1))) with 0%nat by lia.
        now rewrite !firstn_O.
    + apply IH. exact Hc.
Qed.


End ItemListFacts.

(** Item listing filters first and paginates second: for a non-negative
    offset, [get_many] returns the window [offset, offset + limit) of the
    stored items, in insertion order, that pass the deletion and price
    filters. *)
Theorem item_get_many_filtered_then_paged (s : Store) (offset limit : Z)
    (min_price max_price : option Z) (show_deleted : bool) (Hoff : 0 <= offset) :
  ItemQueries.get_many offset limit min_price max_price show_deleted s =
  firstn (Z.to_nat limit)
    (skipn (Z.to_nat offset)
       (map (fun p => mkItemEntity (fst p) (snd p))
          (filter (fun p => ItemQueries.item_passes min_price max_price show_deleted (snd p))
             (items_data s)))).
Proof.
  unfold ItemQueries.get_many. rewrite ItemListFacts.item_get_many_loop_closed by lia.
  f_equal; f_equal; lia.
Qed.

Lemma item_get_many_filtered_then_paged_witness :
  ItemQueries.get_many 1 1 None None true c8_store = [mkItemEntity 1 (mkItemInfo "pen" 7 false)].
Proof.
  rewrite (item_get_many_filtered_then_paged c8_store 1 1 None None true ltac:(lia)).
  reflexivity.
Defined.



(** Neither listing returns more than [limit] entities (for a non-negative
    offset). *)
Theorem listings_bounded_by_limit (s : Store) (offset limit : Z)
    (min_price max_price min_quantity max_quantity : option Z) (show_deleted : bool)
    (Hoff : 0 <= offset) :
  (List.length (ItemQueries.get_many offset limit min_price max_price show_deleted s)
     <= Z.to_nat limit)%nat
  /\ (List.length (CartQueries.get_many offset limit min_price max_price
                     min_quantity max_quantity s) <= Z.to_nat limit)%nat.
Proof.
  rewrite (item_get_many_filtered_then_paged s offset limit _ _ _ Hoff).
  rewrite (CartListFacts.get_many_filtered_then_paged s offset limit _ _ _ _ Hoff).
  unfold SpecCartList.filtered_then_paged.
  split; apply firstn_le_length.
Qed.

Lemma listings_bounded_by_limit_witness :
  (List.length (ItemQueries.get_many 0 1 None None true c8_store) <= 1)%nat.
Proof.
  exact (proj1 (listings_bounded_by_limit c8_store 0 1 None None None None true ltac:(lia))).
Defined.

(** ** Item store mutations *)

(** Soft delete only sets the [deleted] flag of the target record, keeping
    its name and price; other items, the carts and the id counter are
    untouched, and deleting twice is the same as deleting once. *)
Theorem item_delete_flag_only (s : Store) (id : Z) :
  PyDict.get id (items_data (ItemQueries.delete id s)) =
    option_map (fun i => mkItemInfo (name i) (price i) true) (PyDict.get id (items_data s))
  /\ (forall k, k <> id ->
        PyDict.get k (items_data (ItemQueries.delete id s)) = PyDict.get k (items_data s))
  /\ carts_data (ItemQueries.delete id s) = carts_data s
  /\ id_generator (ItemQueries.delete id s) = id_generator s
  /\ ItemQueries.delete id (ItemQueries.delete id s) = ItemQueries.delete id s.
Proof.
  unfold ItemQueries.delete.
  destruct (PyDict.get id (items_data s)) as [i|] eqn:E; simpl.
  - rewrite PyDictFacts.get_set_eq. simpl.
    split; [reflexivity|]. split; [intros k Hk; now apply PyDictFacts.get_set_neq|].
    split; [reflexivity|]. split; [reflexivity|].
    unfold ItemQueries.with_items. simpl. now rewrite PyDictFacts.set_set.
  - rewrite E. repeat split; reflexivity.
Qed.

(** A successful item patch never changes the [deleted] flag: the patched
    item is active before and after, and a [deleted] value in the patch
    payload is ignored. *)
Theorem item_patch_keeps_deleted_flag (s : Store) (id : Z) (pi : PatchItemInfo)
    (e : ItemEntity) (s' : Store)
    (H : ItemQueries.patch id pi s = (Some e, s')) :
  deleted (item_entity_info e) = false
  /\ PyDict.get id (items_data s') = Some (item_entity_info e)
  /\ ItemQueries.get_one id s' = Some e
  /\ ItemQueries.patch id (mkPatchItemInfo (patch_name pi) (patch_price pi) (Some true)) s =
     (Some e, s').
Proof.
  unfold ItemQueries.patch in H.
  destruct (PyDict.get id (items_data s)) as [[n0 p0 d0]|] eqn:E; [|discriminate].
  simpl in H. destruct d0; [discriminate|].
  destruct (patch_name pi) as [n|], (patch_price pi) as [p|]; injection H as <- <-; simpl;
    (split; [reflexivity|]; split; [apply PyDictFacts.get_set_eq|]; split;
     [unfold ItemQueries.get_one; simpl; rewrite PyDictFacts.get_set_eq; reflexivity
     | unfold ItemQueries.patch; simpl; rewrite E; reflexivity]).
Qed.

Lemma item_patch_keeps_deleted_flag_witness :
  ItemQueries.get_one 1 (snd (ItemQueries.patch 1 (mkPatchItemInfo (Some "pencil"%string) None None) c8_store))
  = Some (mkItemEntity 1 (mkItemInfo "pencil" 7 false)).
Proof.
  exact (proj1 (proj2 (proj2 (item_patch_keeps_deleted_flag c8_store 1
          (mkPatchItemInfo (Some "pencil"%string) None None)
          (mkItemEntity 1 (mkItemInfo "pencil" 7 false))
          (snd (ItemQueries.patch 1 (mkPatchItemInfo (Some "pencil"%string) None None) c8_store))
          eq_refl)))).
Defined.

(** Upsert then lookup: after [upsert id info] the active-only lookup
    returns exactly [info] unless [info] itself is marked deleted, whatever
    was stored at [id] before; in particular upserting a soft-deleted id
    with [deleted = false] makes it visible again. *)
Theorem item_upsert_get_one (s : Store) (id : Z) (info : ItemInfo) :
  ItemQueries.get_one id (snd (ItemQueries.upsert id info s)) =
  if deleted info then None else Some (mkItemEntity id info).
Proof.
  unfold ItemQueries.get_one. simpl. now rewrite PyDictFacts.get_set_eq.
Qed.

(** Add then lookup: [add] returns the current counter value as id,
    advances the counter by one, and afterwards that id holds exactly the
    given record (replacing any record an earlier [upsert] put there); other
    items and all carts are unchanged. *)
Theorem item_add_get_one (s : Store) (info : ItemInfo) :
  item_entity_id (fst (ItemQueries.add info s)) = id_generator s
  /\ id_generator (snd (ItemQueries.add info s)) = id_generator s + 1
  /\ ItemQueries.get_one (id_generator s) (snd (ItemQueries.add info s)) =
       (if deleted info then None else Some (mkItemEntity (id_generator s) info))
  /\ (forall k, k <> id_generator s ->
        PyDict.get k (items_data (snd (ItemQueries.add info s))) = PyDict.get k (items_data s))
  /\ carts_data (snd (ItemQueries.add info s)) = carts_data s.
Proof.
  simpl. split; [reflexivity|]. split; [reflexivity|]. split.
  - unfold ItemQueries.get_one. simpl. now rewrite PyDictFacts.get_set_eq.
  - split; [intros k Hk; now apply PyDictFacts.get_set_neq|reflexivity].
Qed.

(** ** Cart store operations *)

Module CartQtyFacts.
Import CartQueries.

Lemma fold_quantity_shift (l : list CartItemInfo) : forall a,
  fold_left (fun acc i => acc + quantity i) l a = a + total_quantity l.
Proof.
  unfold total_quantity. induction l as [|x r IH]; intros a; simpl; [lia|].
  rewrite (IH (a + quantity x)), (IH (quantity x)). lia.
Qed.

Lemma total_quantity_cons x l : total_quantity (x :: l) = quantity x + total_quantity l.
Proof. unfold total_quantity at 1. simpl. rewrite fold_quantity_shift. lia. Qed.

Lemma total_quantity_app l1 l2 :
  total_quantity (l1 ++ l2) = total_quantity l1 + total_quantity l2.
Proof.
  induction l1 as [|x r IH]; simpl; [reflexivity|].
  rewrite !total_quantity_cons, IH. lia.
Qed.

Lemma total_quantity_project (s : Store) l :
  total_quantity (map (Spec.project_line s) l) = total_quantity l.
Proof.
  induction l as [|x r IH]; simpl; [reflexivity|].
  rewrite !total_quantity_cons, IH. reflexivity.
Qed.

Lemma total_quantity_add_item_loop item_id nl l :
  quantity nl = 1 ->
  total_quantity (add_item_loop item_id nl l) = total_quantity l + 1.
Proof.
  intros Hq. induction l as [|x r IH]; simpl.
  - rewrite total_quantity_cons, Hq. unfold total_quantity. simpl. lia.
  - destruct (line_id x =? item_id); rewrite !total_quantity_cons; simpl.
    + lia.
    + rewrite IH. lia.
Qed.

End CartQtyFacts.

(** Recalculation keeps the total quantity: the sum of line quantities of
    the recomputed view equals that of the stored lines, unavailable lines
    included (this is the quantity the listing filters compare). *)
Theorem recalc_total_quantity (s : Store) (info : CartInfo) :
  CartQueries.total_quantity (items (CartQueries._recalculate_cart_info s info)) =
  CartQueries.total_quantity (items info).
Proof.
  rewrite RecalcFacts.recalculate_closed. simpl. apply CartQtyFacts.total_quantity_project.
Qed.

(** [add_item] on an existing cart raises the total quantity of the
    returned view by exactly one. *)
Theorem add_item_total_quantity (s : Store) (cart_id item_id : Z) (existing : CartInfo)
    (H : PyDict.get cart_id (carts_data s) = Some existing) :
  exists e s', CartQueries.add_item cart_id item_id s = (Some e, s')
    /\ CartQueries.total_quantity (items (cart_entity_info e)) =
       CartQueries.total_quantity (items existing) + 1.
Proof.
  unfold CartQueries.add_item. rewrite H.
  do 2 eexists. split; [reflexivity|]. simpl.
  rewrite recalc_total_quantity. simpl.
  rewrite CartQtyFacts.total_quantity_add_item_loop; reflexivity.
Qed.

Lemma add_item_total_quantity_witness :
  exists e s', CartQueries.add_item 1 0 c7_store = (Some e, s')
    /\ CartQueries.total_quantity (items (cart_entity_info e)) = 4.
Proof.
  exact (add_item_total_quantity c7_store 1 0
           (mkCartInfo [mkCartItemInfo 0 "apple" 3 true] 0) eq_refl).
Defined.

(** Cart [update]/[upsert] store the given lines as they are, and a later
    [get_one] returns their recalculation, not the supplied price. *)
Theorem cart_put_then_get (s : Store) (id : Z) (info : CartInfo) :
  CartQueries.get_one id (snd (CartQueries.upsert id info s)) =
    Some (mkCartEntity id (CartQueries._recalculate_cart_info s info))
  /\ (PyDict.mem id (carts_data s) = true ->
      CartQueries.get_one id (snd (CartQueries.update id info s)) =
        Some (mkCartEntity id (CartQueries._recalculate_cart_info s info))).
Proof.
  split.
  - unfold CartQueries.get_one. simpl. rewrite PyDictFacts.get_set_eq.
    f_equal. f_equal. now apply RecalcFacts3.recalc_items_only.
  - intros Hm. unfold CartQueries.update. rewrite Hm. simpl.
    unfold CartQueries.get_one. simpl. rewrite PyDictFacts.get_set_eq.
    f_equal. f_equal. now apply RecalcFacts3.recalc_items_only.
Qed.

Lemma cart_put_then_get_witness :
  CartQueries.get_one 1
    (snd (CartQueries.update 1 (mkCartInfo [mkCartItemInfo 0 "apple" 3 true] 5) c7_store))
  = Some (mkCartEntity 1 (mkCartInfo [mkCartItemInfo 0 "apple" 3 true] 30)).
Proof.
  rewrite (proj2 (cart_put_then_get c7_store 1
                    (mkCartInfo [mkCartItemInfo 0 "apple" 3 true] 5)) eq_refl).
  reflexivity.
Defined.

(** A cart patch without lines only recalculates: every later cart lookup
    returns what it returned before the patch. *)
Theorem cart_patch_without_items_invisible (s : Store) (id : Z) (p : option Z) (k : Z) :
  CartQueries.get_one k (snd (CartQueries.patch id (mkPatchCartInfo None p) s)) =
  CartQueries.get_one k s.
Proof.
  unfold CartQueries.patch. simpl.
  destruct (PyDict.get id (carts_data s)) as [info|] eqn:E; [|reflexivity].
  unfold CartQueries.get_one. simpl.
  destruct (Z.eq_dec k id) as [->|Hne].
  - rewrite PyDictFacts.get_set_eq, E. f_equal. f_equal.
    apply RecalcFacts3.recalc_idem. reflexivity.
  - rewrite PyDictFacts.get_set_neq by exact Hne.
    destruct (PyDict.get k (carts_data s)); [|reflexivity].
    f_equal. f_equal. now apply RecalcFacts3.recalc_items_only.
Qed.

(** The [patch_cart] route turns an explicitly empty [items] list into "no
    items": patching with [items = []] leaves the cart's lines as they were
    (it does not empty the cart), exactly like omitting [items]. *)
Theorem patch_cart_empty_items_keeps_lines (s : Store) (id : Z) (p : option Z) :
  CartContracts.patch_cart id (CartContracts.mkPatchCartRequest (Some []) p) s =
    CartContracts.patch_cart id (CartContracts.mkPatchCartRequest None p) s
  /\ (forall k, CartQueries.get_one k
        (snd (CartContracts.patch_cart id (CartContracts.mkPatchCartRequest (Some []) p) s)) =
      CartQueries.get_one k s).
Proof.
  split; [reflexivity|]. intros k. apply cart_patch_without_items_invisible.
Qed.

(** Cart deletion (keys of [carts_data] are distinct, as every store
    operation keeps them): afterwards the cart is not found, every other
    cart is unchanged, and deleting an absent cart does nothing. *)
Theorem cart_delete_removes (s : Store) (id : Z)
    (Hnd : NoDup (map fst (carts_data s))) :
  CartQueries.get_one id (CartQueries.delete id s) = None
  /\ (forall k, k <> id -> CartQueries.get_one k (CartQueries.delete id s) = CartQueries.get_one k s)
  /\ items_data (CartQueries.delete id s) = items_data s
  /\ (PyDict.get id (carts_data s) = None -> CartQueries.delete id s = s).
Proof.
  unfold CartQueries.delete, CartQueries.get_one, PyDict.mem.
  destruct (PyDict.get id (carts_data s)) as [info|] eqn:E; simpl.
  - rewrite PyDictFacts.get_del_eq by exact Hnd.
    split; [reflexivity|]. split; [|split; [reflexivity|discriminate]].
    intros k Hk. rewrite PyDictFacts.get_del_neq by exact Hk.
    destruct (PyDict.get k (carts_data s)); [|reflexivity].
    f_equal. f_equal. apply RecalcFacts3.recalc_items_only. reflexivity.
  - rewrite E. repeat split; reflexivity.
Qed.

Lemma cart_delete_removes_witness :
  CartQueries.get_one 1 (CartQueries.delete 1 c4_store) = None
  /\ CartQueries.get_one 2 (CartQueries.delete 1 c4_store) = CartQueries.get_one 2 c4_store.
Proof.
  assert (Hnd : NoDup (map fst (carts_data c4_store))).
  { simpl. constructor; [simpl; lia|]. constructor; [simpl; tauto|constructor]. }
  destruct (cart_delete_removes c4_store 1 Hnd) as [H1 [H2 _]].
  split; [exact H1|]. apply H2. lia.
Defined.

(** ** [hw1/app.py]: arithmetic *)

Module Hw1MathFacts.
Import Hw1App SpecHw1.

Lemma fib_SS (m : nat) : fib (S (S m)) = fib (S m) + fib m.
Proof. reflexivity. Qed.

Lemma fib_loop_shift (k : nat) : forall m,
  fib_loop k (fib m) (fib (S m)) = fib (k + m).
Proof.
  induction k as [|k IH]; intros m; [reflexivity|].
  change (fib_loop (S k) (fib m) (fib (S m))) with (fib_loop k (fib (S m)) (fib m + fib (S m))).
  rewrite Z.add_comm, <- fib_SS, IH. f_equal. lia.
Qed.

Lemma fact_loop (n : nat) : forall a,
  fold_left (fun result i => result * i) (map Z.of_nat (seq 1 n)) a = a * Z.of_nat (fact n).
Proof.
  induction n as [|n IH]; intros a; [simpl; lia|].
  rewrite seq_S, map_app, fold_left_app, IH. simpl fold_left.
  change (fact (S n)) with (S n * fact n)%nat.
  rewrite Nat2Z.inj_mul. lia.
Qed.

End Hw1MathFacts.

(** [calc_fib] raises [ValueError("num must be ge 0")] on a negative
    argument and otherwise returns the n-th Fibonacci number
    (fib 0 = 0, fib 1 = 1, fib (n+2) = fib (n+1) + fib n). *)
Theorem calc_fib_spec (n : Z) :
  Hw1App.calc_fib n =
  if n <? 0 then Hw1App.ValueError "num must be ge 0"
  else Hw1App.Ok (SpecHw1.fib (Z.to_nat n)).
Proof.
  unfold Hw1App.calc_fib. destruct (n <? 0); [reflexivity|].
  f_equal. rewrite <- (Nat.add_0_r (Z.to_nat n)) at 2.
  apply (Hw1MathFacts.fib_loop_shift (Z.to_nat n) 0).
Qed.

(** [calc_fact] raises [ValueError("num must be ge 0")] on a negative
    argument and otherwise returns n! (with 0! = 1). *)
Theorem calc_fact_spec (n : Z) :
  Hw1App.calc_fact n =
  if n <? 0 then Hw1App.ValueError "num must be ge 0"
  else Hw1App.Ok (Z.of_nat (fact (Z.to_nat n))).
Proof.
  unfold Hw1App.calc_fact. destruct (n <? 0) eqn:Hn; [reflexivity|].
  destruct (Z.eqb_spec n 0) as [->|Hne]; [reflexivity|].
  f_equal. rewrite Hw1MathFacts.fact_loop. lia.
Qed.

(** ** [hw1/app.py]: reading the request body *)

Module StringFacts.

Lemma append_assoc (a b c : string) : ((a ++ b) ++ c)%string = (a ++ (b ++ c))%string.
Proof. induction a as [|x a IH]; simpl; [reflexivity|now rewrite IH]. Qed.

Lemma append_nil (a : string) : (a ++ "")%string = a.
Proof. induction a as [|x a IH]; simpl; [reflexivity|now rewrite IH]. Qed.

End StringFacts.

Module ReadBodyFacts.
Import Hw1App.

Lemma loop_chunks chunks last rest body :
  Forall (fun m => more_of m = true) chunks -> more_of last = false ->
  read_body_loop (chunks ++ last :: rest) body
  = Some ((body ++ SpecHw1.all_bodies (chunks ++ [last]))%string, rest).
Proof.
  intros Hc Hl. revert body. induction Hc as [|m r Hm Hr IH]; intros body; simpl.
  - now rewrite Hl, StringFacts.append_nil.
  - rewrite Hm, IH. now rewrite StringFacts.append_assoc.
Qed.

Lemma loop_starved pending body :
  Forall (fun m => more_of m = true) pending -> read_body_loop pending body = None.
Proof.
  intros H. revert body. induction H as [|m r Hm Hr IH]; intros body; simpl;
    [reflexivity|now rewrite Hm].
Qed.

End ReadBodyFacts.

(** [read_body] keeps receiving while [more_body] is set: on messages
    whose [more_body] flags are all true up to one that is false, it
    returns the concatenation of their bodies (a missing body counting as
    empty) and consumes nothing after that message. *)
Theorem read_body_concatenates chunks last rest :
  Forall (fun m => Hw1App.more_of m = true) chunks -> Hw1App.more_of last = false ->
  Hw1App.read_body (chunks ++ last :: rest)
  = Some (SpecHw1.all_bodies (chunks ++ [last]), rest).
Proof.
  intros Hc Hl. unfold Hw1App.read_body.
  now rewrite (ReadBodyFacts.loop_chunks chunks last rest "" Hc Hl).
Qed.

Lemma read_body_concatenates_witness :
  Forall (fun m => Hw1App.more_of m = true)
    [Hw1App.mkMessage (Some "ab"%string) (Some true); Hw1App.mkMessage None (Some true)]
  /\ Hw1App.more_of (Hw1App.mkMessage (Some "c"%string) None) = false
  /\ Hw1App.read_body
       ([Hw1App.mkMessage (Some "ab"%string) (Some true); Hw1App.mkMessage None (Some true)]
        ++ Hw1App.mkMessage (Some "c"%string) None :: [])
     = Some ("abc"%string, []).
Proof.
  assert (Hc : Forall (fun m => Hw1App.more_of m = true)
    [Hw1App.mkMessage (Some "ab"%string) (Some true); Hw1App.mkMessage None (Some true)])
    by (repeat constructor).
  assert (Hl : Hw1App.more_of (Hw1App.mkMessage (Some "c"%string) None) = false)
    by reflexivity.
  split; [exact Hc|split; [exact Hl|]].
  rewrite (read_body_concatenates _ _ [] Hc Hl). reflexivity.
Defined.

(** If every pending message sets [more_body], [read_body] never returns:
    it is still waiting for the next message. *)
Theorem read_body_waits pending :
  Forall (fun m => Hw1App.more_of m = true) pending -> Hw1App.read_body pending = None.
Proof. intros H. now apply ReadBodyFacts.loop_starved. Qed.

Lemma read_body_waits_witness :
  Forall (fun m => Hw1App.more_of m = true) [Hw1App.mkMessage (Some "ab"%string) (Some true)]
  /\ Hw1App.read_body [Hw1App.mkMessage (Some "ab"%string) (Some true)] = None.
Proof.
  assert (H : Forall (fun m => Hw1App.more_of m = true)
    [Hw1App.mkMessage (Some "ab"%string) (Some true)]) by (repeat constructor).
  split; [exact H|]. apply (read_body_waits _ H).
Defined.

(** ** [hw1/app.py]: the query string of [/factorial] *)

Module ParamsFacts.
Import Hw1App.

Definition step (params : list (string * string)) (pair : string) :=
  match split_once "=" pair with
  | Some (key, value) => sset key value params
  | None => params
  end.

Definition pair_text (p : string * string) : string := (fst p ++ "=" ++ snd p)%string.

Lemma parse_params_fold (q : string) :
  parse_params q = fold_left step (split_on "&" q) [].
Proof. destruct q; reflexivity. Qed.

Lemma free_of_cons c x s : SpecHw1.free_of c (String x s) <-> x <> c /\ SpecHw1.free_of c s.
Proof. unfold SpecHw1.free_of; simpl; tauto. Qed.

Lemma free_of_app c a b :
  SpecHw1.free_of c a -> SpecHw1.free_of c b -> SpecHw1.free_of c (a ++ b).
Proof.
  induction a as [|x a IH]; simpl; intros Ha Hb; [exact Hb|].
  apply free_of_cons in Ha as [Hx Ha]. apply free_of_cons. auto.
Qed.

Lemma split_on_nonnil sep s : split_on sep s <> [].
Proof.
  destruct s as [|c r]; simpl; [discriminate|].
  destruct (Ascii.eqb c sep); [discriminate|]. destruct (split_on sep r); discriminate.
Qed.

Lemma split_on_free_app sep a b :
  SpecHw1.free_of sep a ->
  split_on sep (a ++ b) =
  match split_on sep b with [] => [a] | h :: t => (a ++ h)%string :: t end.
Proof.
  intros Ha. induction a as [|x a IH]; simpl.
  - destruct (split_on sep b) eqn:E; [now apply split_on_nonnil in E|reflexivity].
  - apply free_of_cons in Ha as [Hx Ha].
    destruct (Ascii.eqb_spec x sep) as [->|_]; [contradiction|].
    rewrite (IH Ha). destruct (split_on sep b); reflexivity.
Qed.

Lemma split_once_free_app sep k v :
  SpecHw1.free_of sep k -> split_once sep (k ++ String sep v) = Some (k, v).
Proof.
  induction k as [|x k IH]; intros Hk; simpl.
  - now rewrite Ascii.eqb_refl.
  - apply free_of_cons in Hk as [Hx Hk].
    destruct (Ascii.eqb_spec x sep) as [->|_]; [contradiction|]. now rewrite (IH Hk).
Qed.

Definition pair_ok (p : string * string) : Prop :=
  SpecHw1.free_of "&" (fst p) /\ SpecHw1.free_of "=" (fst p) /\ SpecHw1.free_of "&" (snd p).

Lemma pair_text_free p : pair_ok p -> SpecHw1.free_of "&" (pair_text p).
Proof.
  intros (Hk & _ & Hv). unfold pair_text. apply free_of_app; [exact Hk|].
  apply free_of_cons. split; [discriminate|exact Hv].
Qed.

Lemma split_join ps :
  ps <> [] -> Forall pair_ok ps -> split_on "&" (SpecHw1.join_pairs ps) = map pair_text ps.
Proof.
  induction ps as [|[k v] r IH]; intros Hne Hok; [contradiction|].
  inversion Hok as [|? ? Hp Hr]; subst.
  pose proof (pair_text_free (k, v) Hp) as Hf. unfold pair_text in Hf; simpl in Hf.
  destruct r as [|p r'].
  - pose proof (split_on_free_app "&" _ "" Hf) as E. simpl in E.
    rewrite !StringFacts.append_nil in E. simpl. now rewrite E.
  - change (SpecHw1.join_pairs ((k, v) :: p :: r'))
      with (k ++ "=" ++ v ++ "&" ++ SpecHw1.join_pairs (p :: r'))%string.
    assert (E : (k ++ "=" ++ v ++ "&" ++ SpecHw1.join_pairs (p :: r'))%string
                = ((k ++ String "=" v) ++ String "&" (SpecHw1.join_pairs (p :: r')))%string)
      by (now rewrite StringFacts.append_assoc).
    rewrite E.
    rewrite (split_on_free_app "&" _ _ Hf).
    change (split_on "&" (String "&" (SpecHw1.join_pairs (p :: r'))))
      with (""%string :: split_on "&" (SpecHw1.join_pairs (p :: r'))).
    rewrite (IH ltac:(discriminate) Hr), StringFacts.append_nil. reflexivity.
Qed.

Lemma sget_sset k k' v d :
  sget k (sset k' v d) = if String.eqb k k' then Some v else sget k d.
Proof.
  induction d as [|[k0 v0] r IH]; simpl.
  - reflexivity.
  - destruct (String.eqb_spec k' k0) as [->|Hne]; simpl.
    + destruct (String.eqb k k0); reflexivity.
    + rewrite IH. destruct (String.eqb_spec k k0) as [->|_]; [|reflexivity].
      destruct (String.eqb_spec k0 k') as [->|_]; [contradiction|reflexivity].
Qed.

Lemma sget_fold k ps d :
  Forall pair_ok ps ->
  sget k (fold_left step (map pair_text ps) d)
  = match SpecHw1.last_value k ps with Some w => Some w | None => sget k d end.
Proof.
  intros Hok. revert d. induction Hok as [|[k' v'] r Hp Hr IH]; intros d; simpl.
  - reflexivity.
  - rewrite IH. unfold step, pair_text at 1. simpl.
    destruct Hp as (_ & Hk & _).
    rewrite (split_once_free_app "=" k' v' Hk), sget_sset.
    destruct (SpecHw1.last_value k r); [reflexivity|].
    destruct (String.eqb k k'); reflexivity.
Qed.

End ParamsFacts.

(** Round trip of the [/factorial] query string: for pairs whose keys
    contain neither '&' nor '=' and whose values contain no '&', parsing
    [k1=v1&k2=v2&...] gives each key the value of its last occurrence, and
    no value to a key that does not occur. *)
Theorem parse_params_join ps k :
  Forall ParamsFacts.pair_ok ps ->
  Hw1App.sget k (Hw1App.parse_params (SpecHw1.join_pairs ps)) = SpecHw1.last_value k ps.
Proof.
  intros Hok. destruct ps as [|p r]; [reflexivity|].
  rewrite ParamsFacts.parse_params_fold, ParamsFacts.split_join by (discriminate || exact Hok).
  rewrite ParamsFacts.sget_fold by exact Hok.
  destruct (SpecHw1.last_value k (p :: r)); reflexivity.
Qed.

Lemma parse_params_join_witness :
  Forall ParamsFacts.pair_ok [("n"%string, "3"%string); ("m"%string, "x"%string); ("n"%string, "5"%string)]
  /\ Hw1App.sget "n" (Hw1App.parse_params
        (SpecHw1.join_pairs [("n"%string, "3"%string); ("m"%string, "x"%string); ("n"%string, "5"%string)]))
     = Some "5"%string.
Proof.
  assert (Hok : Forall ParamsFacts.pair_ok
    [("n"%string, "3"%string); ("m"%string, "x"%string); ("n"%string, "5"%string)]).
  { unfold ParamsFacts.pair_ok, SpecHw1.free_of.
    repeat constructor; simpl; intuition discriminate. }
  split; [exact Hok|]. rewrite (parse_params_join _ "n" Hok). reflexivity.
Defined.
